(** * Telecom billing reconciliation dashboard (streamlit_app.py)

    A shallow embedding of the data generator, the two selector filters, the
    page logic and the group-by aggregations of [streamlit_app.py], with the
    properties of its specification stated and proved over the embedding.

    Modelling conventions.
    - A pandas [DataFrame] is a list of rows in index order; a column is a
      function from rows to values.
    - A floating-point amount is the rational it denotes ([Q]).  The
      arithmetic on amounts is exact, rounding is not modelled: the
      properties below are those that hold of the rounded values as well,
      and none depends on the value of a sum.
    - NumPy's global random state is threaded explicitly through a small
      state monad.  The Mersenne Twister itself is a library: it is an
      arbitrary deterministic source, a parameter of the generator. *)

From Stdlib Require Import List String Ascii ZArith QArith Lia Bool Arith.
From Stdlib Require Import Permutation DecimalString FinFun Lqa Sorted.
Import ListNotations.

Open Scope string_scope.

(** ** The data model *)

(** One dictionary appended to [data] (lines 28-36); the keys of the
    dictionary are the columns of the frame. *)
Record Row : Type := mkRow {
  Carrier_Name : string;
  Invoice_Amount : Q;
  Disputed_Amount : Q;
  Reconciliation_Status : string;
  Dispute_Type : option string;
  Settlement_Status : string;
  Invoice_Month : string
}.

Definition DataFrame : Type := list Row.

(** ** Formatting helpers of the source *)

(** [str(n)] for a natural number, as an f-string prints it. *)
Definition str_of_nat (n : nat) : string :=
  NilZero.string_of_uint (Nat.to_uint n).

(** [strftime] fields: [%Y] (four digits in the range used here) and [%m]
    (two digits, zero padded). *)
Definition fmt_Y (y : nat) : string := str_of_nat y.

Definition fmt_m (m : nat) : string :=
  if (m <? 10)%nat then "0" ++ str_of_nat m else str_of_nat m.

(** [pd.date_range(start, periods, freq='M')]: the month ends of [periods]
    consecutive months; only the year and the month are kept, which is all
    that [strftime('%Y-%m')] reads. *)
Fixpoint date_range_M (y m periods : nat) : list (nat * nat) :=
  match periods with
  | O => []
  | S n => (y, m) :: (if (m =? 12)%nat then date_range_M (S y) 1 n
                      else date_range_M y (S m) n)
  end.

Definition strftime_Ym (d : nat * nat) : string :=
  fmt_Y (fst d) ++ "-" ++ fmt_m (snd d).

(** Line 11. *)
Definition months : list string := map strftime_Ym (date_range_M 2024 1 12).

(** Line 12: [range(1, 11)] is [1..10]. *)
Definition carriers : list string :=
  map (fun i => "Carrier " ++ str_of_nat i) (seq 1 10).

(** ** NumPy's legacy random interface *)

Definition Qltb (x y : Q) : bool := negb (Qle_bool y x).

Module NumpyRandom.
Section Source.

(** The state of the generator and its two raw draws: the 53 random bits
    behind [random_sample], and the bounded integer behind [randint].
    Whatever the source hands back is reduced into the range the library
    documents, so every instance is a legal generator. *)
Variable rng : Type.
Variable raw53 : rng -> Z * rng.
Variable raw_below : nat -> rng -> nat * rng.

Definition Rand (A : Type) : Type := rng -> A * rng.

Definition ret {A} (a : A) : Rand A := fun s => (a, s).

Definition bind {A B} (m : Rand A) (k : A -> Rand B) : Rand B :=
  fun s => let (a, s') := m s in k a s'.

(** [random_sample()]: a multiple of [2^-53] in [[0, 1)]. *)
Definition random_sample : Rand Q :=
  fun s => let (k, s') := raw53 s in
           (Qmake (k mod 2 ^ 53) (2 ^ 53)%positive, s').

(** [np.random.rand()] with no dimension. *)
Definition rand : Rand Q := random_sample.

(** [np.random.uniform(low, high)] is [low + (high - low) * random_sample()],
    taken exactly.  In binary64 the result is rounded and can reach [high]
    itself; it never passes it, and with [low = 0] it stays below [high]. *)
Definition uniform (low high : Q) : Rand Q :=
  bind random_sample (fun u => ret (low + (high - low) * u)%Q).

(** [randint(0, n)] for [n > 0]. *)
Definition randint (n : nat) : Rand nat :=
  fun s => let (i, s') := raw_below n s in ((i mod n)%nat, s').

(** [np.random.choice(a)] of a non-empty list literal [a = x :: xs]:
    [a[randint(0, len(a))]]. *)
Definition choice {A} (x : A) (xs : list A) : Rand A :=
  bind (randint (S (List.length xs))) (fun i => ret (nth i (x :: xs) x)).

End Source.
End NumpyRandom.

(** ** The generator (lines 7-38) *)

Module Generator.
Import NumpyRandom.
Section Gen.

Variable rng : Type.
Variable raw53 : rng -> Z * rng.
Variable raw_below : nat -> rng -> nat * rng.
(** [np.random.seed]. *)
Variable seed : Z -> rng.

Abbreviation M := (Rand rng).
Notation "x <- m ;; k" := (bind rng m (fun x => k))
  (at level 61, m at next level, right associativity).
Abbreviation uniform := (uniform rng raw53).
Abbreviation rand := (rand rng raw53).
Abbreviation choice := (choice rng raw_below).
Abbreviation ret := (ret rng).

(** A [for] loop whose body draws from the generator and appends. *)
Fixpoint for_each {A B} (body : A -> M B) (l : list A) : M (list B) :=
  match l with
  | [] => ret []
  | x :: l' => b <- body x ;; bs <- for_each body l' ;; ret (b :: bs)
  end.

(** The body of the inner loop (lines 19-36).  The local [is_disputed] is
    returned next to the row, since the frame has no such column. *)
Definition gen_row (month carrier : string) : M (bool * Row) :=
  invoice_amount <- uniform 1000 5000 ;;
  r <- rand ;;
  let is_disputed := Qltb r 0.2 in
  disputed_amount <-
    (if is_disputed then uniform 0 (invoice_amount * 0.3) else ret 0%Q) ;;
  reconciliation <- choice "Pending" ["Completed"; "In Progress"] ;;
  dispute_type <-
    (if is_disputed
     then t <- choice "Rate Dispute" ["Volume Dispute"] ;; ret (Some t)
     else ret None) ;;
  settlement <-
    (if is_disputed then choice "Settled" ["Unsettled"] else ret "Settled") ;;
  ret (is_disputed,
       {| Carrier_Name := carrier;
          Invoice_Amount := invoice_amount;
          Disputed_Amount := disputed_amount;
          Reconciliation_Status := reconciliation;
          Dispute_Type := dispute_type;
          Settlement_Status := settlement;
          Invoice_Month := month |}).

(** The two nested loops (lines 17-18) over arbitrary label lists; the
    rows of one month are appended after those of the months before. *)
Definition gen_loops (ms cs : list string) : M (list (bool * Row)) :=
  per_month <- for_each (fun month => for_each (gen_row month) cs) ms ;;
  ret (List.concat per_month).

(** The rows with the flag that produced each of them, from state [s]. *)
Definition generate_trace (s : rng) : list (bool * Row) :=
  fst (gen_loops months carriers s).

(** The frame built from [data]. *)
Definition generate_from (s : rng) : DataFrame := map snd (generate_trace s).

(** [generate_sample_data()]: the seed is the constant 42 (line 8). *)
Definition generate_sample_data : DataFrame := generate_from (seed 42).

End Gen.
End Generator.

(** A concrete source to run the generator on: a 64-bit linear congruential
    generator.  It stands in for the Mersenne Twister in the examples only;
    the theorems hold for every source. *)
Module Lcg.

Definition step (s : Z) : Z :=
  ((6364136223846793005 * s + 1442695040888963407) mod 2 ^ 64)%Z.

Definition raw53 (s : Z) : Z * Z :=
  let s' := step s in (Z.shiftr s' 11, s').

Definition raw_below (n : nat) (s : Z) : nat * Z :=
  let s' := step s in (Z.to_nat (Z.shiftr s' 33 mod Z.of_nat n), s').

Definition seed (n : Z) : Z := n.

Definition sample_data : DataFrame :=
  Generator.generate_sample_data Z raw53 raw_below seed.

Definition sample_trace : list (bool * Row) :=
  Generator.generate_trace Z raw53 raw_below (seed 42).

End Lcg.

(** ** Selectors and the filter stage (lines 49-59) *)

(** [Series.unique()]: the distinct values in order of first appearance. *)
Fixpoint unique_from (seen l : list string) : list string :=
  match l with
  | [] => []
  | x :: l' =>
      if existsb (String.eqb x) seen then unique_from seen l'
      else x :: unique_from (x :: seen) l'
  end.

Definition unique (l : list string) : list string := unique_from [] l.

(** The options of the two select boxes (lines 49-50). *)
Definition carrier_options (df : DataFrame) : list string :=
  "All" :: unique (map Carrier_Name df).

Definition month_options (df : DataFrame) : list string :=
  "All" :: unique (map Invoice_Month df).

(** Lines 53-59: a copy of the frame, narrowed once per selector that is not
    the sentinel.  A boolean mask keeps the rows it selects in index order. *)
Definition filtered_df (df : DataFrame) (carrier_filter month_filter : string)
  : DataFrame :=
  let filtered := df in
  let filtered :=
    if negb (carrier_filter =? "All")
    then filter (fun r => Carrier_Name r =? carrier_filter) filtered
    else filtered in
  let filtered :=
    if negb (month_filter =? "All")
    then filter (fun r => Invoice_Month r =? month_filter) filtered
    else filtered in
  filtered.

(** ** Group-by (pandas defaults: [sort=True], [dropna=True]) *)

(** A group key: the values of the [by] columns, in the order of [by]. *)
Definition Key : Type := list string.

Fixpoint key_eqb (a b : Key) : bool :=
  match a, b with
  | [], [] => true
  | x :: a', y :: b' => (x =? y) && key_eqb a' b'
  | _, _ => false
  end.

(** Tuples compare lexicographically, strings by code point. *)
Fixpoint key_leb (a b : Key) : bool :=
  match a, b with
  | [], _ => true
  | _ :: _, [] => false
  | x :: a', y :: b' =>
      match String.compare x y with
      | Lt => true
      | Eq => key_leb a' b'
      | Gt => false
      end
  end.

Fixpoint insert_sorted (k : Key) (l : list Key) : list Key :=
  match l with
  | [] => [k]
  | k' :: l' => if key_leb k k' then k :: l else k' :: insert_sorted k l'
  end.

Definition sort_keys (l : list Key) : list Key := fold_right insert_sorted [] l.

Fixpoint unique_keys_from (seen l : list Key) : list Key :=
  match l with
  | [] => []
  | k :: l' =>
      if existsb (key_eqb k) seen then unique_keys_from seen l'
      else k :: unique_keys_from (k :: seen) l'
  end.

Definition unique_keys (l : list Key) : list Key := unique_keys_from [] l.

(** A column that can hold [None]. *)
Definition Column : Type := Row -> option string.

Definition col_carrier : Column := fun r => Some (Carrier_Name r).
Definition col_month : Column := fun r => Some (Invoice_Month r).
Definition col_reconciliation : Column := fun r => Some (Reconciliation_Status r).
Definition col_dispute_type : Column := Dispute_Type.
Definition col_settlement : Column := fun r => Some (Settlement_Status r).

(** The key of a row, or [None] when one of the [by] columns is null: such
    a row belongs to no group ([dropna=True]). *)
Fixpoint row_key (by_cols : list Column) (r : Row) : option Key :=
  match by_cols with
  | [] => Some []
  | c :: cs =>
      match c r, row_key cs r with
      | Some v, Some k => Some (v :: k)
      | _, _ => None
      end
  end.

Definition keys_of (by_cols : list Column) (df : DataFrame) : list Key :=
  flat_map (fun r => match row_key by_cols r with
                     | Some k => [k]
                     | None => []
                     end) df.

Definition in_group (by_cols : list Column) (k : Key) (r : Row) : bool :=
  match row_key by_cols r with
  | Some k' => key_eqb k' k
  | None => false
  end.

(** The keys of the groups: the distinct keys present, sorted. *)
Definition group_keys (by_cols : list Column) (df : DataFrame) : list Key :=
  sort_keys (unique_keys (keys_of by_cols df)).

(** [df.groupby(by)]: the groups in key order, each with its rows in index
    order. *)
Definition groupby (by_cols : list Column) (df : DataFrame)
  : list (Key * DataFrame) :=
  map (fun k => (k, filter (in_group by_cols k) df)) (group_keys by_cols df).

(** Whether a row has a key, that is, belongs to some group. *)
Definition has_key (by_cols : list Column) (r : Row) : bool :=
  match row_key by_cols r with
  | Some _ => true
  | None => false
  end.

(** The ['sum'] of a column, taken exactly.  pandas adds binary64 values,
    with rounding that depends on the order of the additions; no property
    below depends on the value of a sum, only on which rows enter it. *)
Definition Qsum (l : list Q) : Q := fold_right Qplus 0%Q l.

(** [.agg({c: 'sum', ...}).reset_index()]: a row per group, the key values
    first, then the sum of each aggregated column. *)
Definition agg_sum (cols : list (Row -> Q)) (groups : list (Key * DataFrame))
  : list (Key * list Q) :=
  map (fun g => (fst g, map (fun c => Qsum (map c (snd g))) cols)) groups.

(** [.size().reset_index(name='Count')]. *)
Definition size (groups : list (Key * DataFrame)) : list (Key * nat) :=
  map (fun g => (fst g, List.length (snd g))) groups.

(** ** The eight chart inputs (lines 79-186) *)

(** Lines 82-83: [px.bar] is handed the filtered frame itself; the chart
    reads the carrier as [x] and the two amounts as [y] of every row. *)
Definition processed_vs_disputed (df : DataFrame) : list (string * Q * Q) :=
  map (fun r => (Carrier_Name r, Invoice_Amount r, Disputed_Amount r)) df.

(** Lines 91-94. *)
Definition monthly_disputes (df : DataFrame) : list (Key * list Q) :=
  agg_sum [Invoice_Amount; Disputed_Amount] (groupby [col_month] df).

(** [groupby('Carrier Name').agg({invoice: 'sum', disputed: 'sum'})], the
    carrier totals that lines 110-113 take of the pending rows. *)
Definition carrier_totals (df : DataFrame) : list (Key * list Q) :=
  agg_sum [Invoice_Amount; Disputed_Amount] (groupby [col_carrier] df).

(** Line 109. *)
Definition pending_reconciliation (df : DataFrame) : DataFrame :=
  filter (fun r => Reconciliation_Status r =? "Pending") df.

(** Lines 110-113. *)
Definition pending_reconciliation_summary (df : DataFrame)
  : list (Key * list Q) :=
  carrier_totals (pending_reconciliation df).

(** Line 125. *)
Definition reconciliation_trend (df : DataFrame) : list (Key * nat) :=
  size (groupby [col_month; col_reconciliation] df).

(** Lines 138-140. *)
Definition dispute_type (df : DataFrame) : list (Key * list Q) :=
  agg_sum [Disputed_Amount] (groupby [col_carrier; col_dispute_type] df).

(** Lines 151-153. *)
Definition dispute_status (df : DataFrame) : list (Key * list Q) :=
  agg_sum [Disputed_Amount] (groupby [col_carrier; col_settlement] df).

(** Line 168. *)
Definition settlement_status (df : DataFrame) : list (Key * nat) :=
  size (groupby [col_carrier; col_settlement] df).

(** Line 179: computed, and read by no chart. *)
Definition outstanding_settlements (df : DataFrame) : DataFrame :=
  filter (fun r => Settlement_Status r =? "Unsettled") df.

(** Lines 180-182. *)
Definition settled_vs_outstanding (df : DataFrame) : list (Key * list Q) :=
  agg_sum [Invoice_Amount] (groupby [col_carrier; col_settlement] df).

(** ** The page (lines 61-188) *)

(** [DataFrame.empty]. *)
Definition empty (df : DataFrame) : bool :=
  match df with
  | [] => true
  | _ :: _ => false
  end.

(** What one chart slot shows: the chart of a table, or the line
    "No data to display for the selected filter." *)
Inductive Slot (T : Type) : Type :=
| Plot (table : T)
| NoDataToDisplay.
Arguments Plot {T} table.
Arguments NoDataToDisplay {T}.

(** The guard around each chart: [if not filtered_df.empty: ... else: ...]. *)
Definition chart {T} (df : DataFrame) (table : DataFrame -> T) : Slot T :=
  if negb (empty df) then Plot (table df) else NoDataToDisplay.

Record Tabs : Type := mkTabs {
  tab1_dataframe : DataFrame;
  tab1_processed_vs_disputed : Slot (list (string * Q * Q));
  tab1_monthly_disputes : Slot (list (Key * list Q));
  tab2_pending_reconciliation_summary : Slot (list (Key * list Q));
  tab2_reconciliation_trend : Slot (list (Key * nat));
  tab3_dispute_type : Slot (list (Key * list Q));
  tab3_dispute_status : Slot (list (Key * list Q));
  tab4_settlement_status : Slot (list (Key * nat));
  tab4_settled_vs_outstanding : Slot (list (Key * list Q))
}.

Definition tabs_of (df : DataFrame) : Tabs :=
  {| tab1_dataframe := df;
     tab1_processed_vs_disputed := chart df processed_vs_disputed;
     tab1_monthly_disputes := chart df monthly_disputes;
     tab2_pending_reconciliation_summary := chart df pending_reconciliation_summary;
     tab2_reconciliation_trend := chart df reconciliation_trend;
     tab3_dispute_type := chart df dispute_type;
     tab3_dispute_status := chart df dispute_status;
     tab4_settlement_status := chart df settlement_status;
     tab4_settled_vs_outstanding := chart df settled_vs_outstanding |}.

(** What a run of the script puts on the page below the select boxes:
    either the no-data warning alone, or an optional coverage warning
    followed by the four tabs. *)
Inductive Page : Type :=
| NoData (warning : string)
| Dashboard (warning : option string) (tabs : Tabs).

Definition no_data_message : string :=
  "No data available for the selected filters. Please adjust your filters and try again.".

(** The f-string of line 66. *)
Definition coverage_message (n : nat) : string :=
  "Only " ++ str_of_nat n
  ++ " carrier(s) available for the selected month. Please adjust the filters for a better view.".

(** [len(filtered_df['Carrier Name'].unique())]. *)
Definition carrier_count (df : DataFrame) : nat :=
  List.length (unique (map Carrier_Name df)).

(** Lines 62-188 for the frame [df] and the two selected values. *)
Definition page (df : DataFrame) (carrier_filter month_filter : string) : Page :=
  let filtered := filtered_df df carrier_filter month_filter in
  if empty filtered then NoData no_data_message
  else
    Dashboard
      (if negb (month_filter =? "All") && (carrier_count filtered <? 3)%nat
       then Some (coverage_message (carrier_count filtered))
       else None)
      (tabs_of filtered).

(** ** Vocabulary of the properties *)

(** Order preservation: [l1] is obtained from [l2] by deleting elements. *)
Inductive subseq {A : Type} : list A -> list A -> Prop :=
| subseq_nil : subseq [] []
| subseq_skip : forall x l1 l2, subseq l1 l2 -> subseq l1 (x :: l2)
| subseq_keep : forall x l1 l2, subseq l1 l2 -> subseq (x :: l1) (x :: l2).

(** The (month, carrier) labels of a generated row. *)
Definition labels (x : bool * Row) : string * string :=
  (Invoice_Month (snd x), Carrier_Name (snd x)).

(** The specification's reading of one selector: the sentinel accepts every
    value, any other selector accepts the value equal to it. *)
Definition selector_accepts (selector value : string) : bool :=
  (selector =? "All") || (value =? selector).

(** The specification's filter: one pass keeping the records that both
    selectors accept. *)
Definition applyFilters (records : DataFrame) (carrierSelector monthSelector : string)
  : DataFrame :=
  filter (fun r => selector_accepts carrierSelector (Carrier_Name r)
                   && selector_accepts monthSelector (Invoice_Month r))
         records.

(** The specification's aggregation 7: group by settlement status alone and
    count the records of each group. *)
Definition settlement_status_counts (records : DataFrame) : list (Key * nat) :=
  size (groupby [col_settlement] records).

(** Two undisputed invoices of one month, of two carriers. *)
Definition two_carriers_settled : DataFrame :=
  [ {| Carrier_Name := "Carrier 1"; Invoice_Amount := 1200;
       Disputed_Amount := 0; Reconciliation_Status := "Pending";
       Dispute_Type := None; Settlement_Status := "Settled";
       Invoice_Month := "2024-01" |};
    {| Carrier_Name := "Carrier 2"; Invoice_Amount := 3400;
       Disputed_Amount := 0; Reconciliation_Status := "Completed";
       Dispute_Type := None; Settlement_Status := "Settled";
       Invoice_Month := "2024-01" |} ].

(** The (month, carrier) labels of a row of the frame. *)
Definition row_labels (r : Row) : string * string :=
  (Invoice_Month r, Carrier_Name r).

(** What the two selectors accept, read on the labels of a row. *)
Definition label_filter (carrier_filter month_filter : string)
           (x : string * string) : bool :=
  selector_accepts carrier_filter (snd x) && selector_accepts month_filter (fst x).

(** Ascending order of group keys. *)
Definition key_le (a b : Key) : Prop := key_leb a b = true.

(** * Properties *)

Example months_value :
  months = ["2024-01"; "2024-02"; "2024-03"; "2024-04"; "2024-05"; "2024-06";
            "2024-07"; "2024-08"; "2024-09"; "2024-10"; "2024-11"; "2024-12"].
Proof. reflexivity. Qed.

Example carriers_value :
  carriers = ["Carrier 1"; "Carrier 2"; "Carrier 3"; "Carrier 4"; "Carrier 5";
              "Carrier 6"; "Carrier 7"; "Carrier 8"; "Carrier 9"; "Carrier 10"].
Proof. reflexivity. Qed.

(** ** Generic list facts *)

Lemma filter_subseq {A} (p : A -> bool) (l : list A) : subseq (filter p l) l.
Proof.
  induction l as [|x l IH]; simpl.
  - constructor.
  - destruct (p x); constructor; exact IH.
Qed.

Lemma filter_filter {A} (p q : A -> bool) (l : list A) :
  filter q (filter p l) = filter (fun x => p x && q x) l.
Proof.
  induction l as [|x l IH]; simpl; [reflexivity|].
  destruct (p x); simpl; [destruct (q x)|]; rewrite IH; reflexivity.
Qed.

Lemma filter_all {A} (p : A -> bool) (l : list A) :
  (forall x, In x l -> p x = true) -> filter p l = l.
Proof.
  induction l as [|x l IH]; simpl; intros H; [reflexivity|].
  rewrite (H x (or_introl eq_refl)). f_equal. apply IH. intros y Hy.
  apply H. right. exact Hy.
Qed.

Lemma filter_none {A} (p : A -> bool) (l : list A) :
  (forall x, In x l -> p x = false) -> filter p l = [].
Proof.
  induction l as [|x l IH]; simpl; intros H; [reflexivity|].
  rewrite (H x (or_introl eq_refl)). apply IH. intros y Hy.
  apply H. right. exact Hy.
Qed.

Lemma NoDup_list_prod {A B} (l : list A) (l' : list B) :
  NoDup l -> NoDup l' -> NoDup (list_prod l l').
Proof.
  intros Hl Hl'. induction Hl as [|x l Hx Hl IH]; simpl.
  - constructor.
  - apply NoDup_app.
    + apply Injective_map_NoDup; [|exact Hl'].
      intros a b Hab. inversion Hab. reflexivity.
    + exact IH.
    + intros [a b] Hin1 Hin2. apply in_map_iff in Hin1.
      destruct Hin1 as [b' [Heq _]]. inversion Heq; subst.
      apply in_prod_iff in Hin2. apply Hx. apply Hin2.
Qed.

(** A list of strings that [nodup] leaves alone has no duplicate. *)
Lemma NoDup_strings (l : list string) : nodup string_dec l = l -> NoDup l.
Proof. intros H. rewrite <- H. apply NoDup_nodup. Qed.

(** ** The generator *)

Section GeneratorFacts.

Variable rng : Type.
Variable raw53 : rng -> Z * rng.
Variable raw_below : nat -> rng -> nat * rng.

Abbreviation gen_row := (Generator.gen_row rng raw53 raw_below).
Abbreviation for_each := (Generator.for_each rng).
Abbreviation gen_loops := (Generator.gen_loops rng raw53 raw_below).

(** A draw of [random_sample] lies in [[0, 1)]. *)
Lemma random_sample_range (s : rng) :
  (0 <= fst (NumpyRandom.random_sample rng raw53 s)
   /\ fst (NumpyRandom.random_sample rng raw53 s) < 1)%Q.
Proof.
  unfold NumpyRandom.random_sample. destruct (raw53 s) as [k s']. simpl.
  assert (Hk : (0 <= k mod 2 ^ 53 < 2 ^ 53)%Z)
    by (apply Z.mod_pos_bound; reflexivity).
  unfold Qle, Qlt. simpl. rewrite Pos2Z.inj_pow. lia.
Qed.

(** [uniform low high] with [low < high] lies in [[low, high)]. *)
Lemma uniform_range (low high : Q) (s : rng) :
  (low < high)%Q ->
  (low <= fst (NumpyRandom.uniform rng raw53 low high s)
   /\ fst (NumpyRandom.uniform rng raw53 low high s) < high)%Q.
Proof.
  intros Hlt. unfold NumpyRandom.uniform, NumpyRandom.bind, NumpyRandom.ret.
  pose proof (random_sample_range s) as [H0 H1].
  destruct (NumpyRandom.random_sample rng raw53 s) as [u s'].
  cbn [fst] in *.
  assert (Hd : (0 < high - low)%Q) by (unfold Qminus; rewrite <- Qlt_minus_iff; exact Hlt).
  split.
  - rewrite <- (Qplus_0_r low) at 1. apply Qplus_le_r.
    apply Qmult_le_0_compat; [apply Qlt_le_weak; exact Hd | exact H0].
  - assert (Hm : ((high - low) * u < (high - low) * 1)%Q)
      by (apply Qmult_lt_l; [exact Hd | exact H1]).
    apply (Qplus_lt_r _ _ low) in Hm.
    eapply Qlt_le_trans; [exact Hm|].
    apply Qle_lteq. right. ring.
Qed.

Lemma for_each_cons {A B} (body : A -> NumpyRandom.Rand rng B) x l s :
  for_each body (x :: l) s =
  (fst (body x s) :: fst (for_each body l (snd (body x s))),
   snd (for_each body l (snd (body x s)))).
Proof.
  simpl. unfold NumpyRandom.bind, NumpyRandom.ret.
  destruct (body x s) as [b s1]. simpl.
  destruct (Generator.for_each rng body l s1) as [bs s2]. reflexivity.
Qed.

(** Every value a loop collects satisfies what its body guarantees. *)
Lemma for_each_Forall {A B} (body : A -> NumpyRandom.Rand rng B)
      (P : B -> Prop) (l : list A) :
  (forall x s, In x l -> P (fst (body x s))) ->
  forall s, Forall P (fst (for_each body l s)).
Proof.
  induction l as [|x l IH]; intros Hbody s.
  - constructor.
  - rewrite for_each_cons. cbn [fst]. constructor.
    + apply Hbody. left. reflexivity.
    + apply IH. intros y t Hy. apply Hbody. right. exact Hy.
Qed.

Lemma gen_loops_Forall (P : bool * Row -> Prop) (ms cs : list string) :
  (forall m c s, P (fst (gen_row m c s))) ->
  forall s, Forall P (fst (gen_loops ms cs s)).
Proof.
  intros Hrow s. unfold Generator.gen_loops, NumpyRandom.bind, NumpyRandom.ret.
  pose proof (for_each_Forall
                (fun month => Generator.for_each rng (gen_row month) cs)
                (Forall P) ms) as Houter.
  specialize (Houter (fun m t _ => for_each_Forall (gen_row m) P cs
                                     (fun c u _ => Hrow m c u) t) s).
  destruct (Generator.for_each rng _ ms s) as [per_month s']. cbn [fst] in *.
  induction Houter as [|rows rest Hrows _ IH]; simpl.
  - constructor.
  - apply Forall_app. split; assumption.
Qed.

(** The labels of the row that one pass of the loop body appends. *)
Lemma gen_row_labels (m c : string) (s : rng) :
  Invoice_Month (snd (fst (gen_row m c s))) = m
  /\ Carrier_Name (snd (fst (gen_row m c s))) = c.
Proof.
  unfold Generator.gen_row, NumpyRandom.bind, NumpyRandom.ret.
  repeat match goal with
         | |- context [let (_, _) := ?e in _] => destruct e
         | |- context [if ?b then _ else _] => destruct b
         end; split; reflexivity.
Qed.

Lemma inner_loop_labels (m : string) (cs : list string) (s : rng) :
  map labels (fst (for_each (gen_row m) cs s)) = map (pair m) cs.
Proof.
  revert s. induction cs as [|c cs IH]; intros s.
  - reflexivity.
  - rewrite for_each_cons. cbn [fst map]. rewrite IH. f_equal.
    unfold labels. destruct (gen_row_labels m c s) as [Hm Hc].
    rewrite Hm, Hc. reflexivity.
Qed.

Lemma gen_loops_labels (ms cs : list string) (s : rng) :
  map labels (fst (gen_loops ms cs s)) = list_prod ms cs.
Proof.
  unfold Generator.gen_loops, NumpyRandom.bind, NumpyRandom.ret.
  assert (H : forall t, map labels (List.concat (fst (for_each
                (fun month => Generator.for_each rng (gen_row month) cs) ms t)))
              = list_prod ms cs).
  { induction ms as [|m ms IH]; intros t.
    - reflexivity.
    - rewrite for_each_cons. cbn [fst List.concat list_prod].
      rewrite map_app, IH. f_equal. apply inner_loop_labels. }
  specialize (H s).
  destruct (Generator.for_each rng _ ms s) as [per_month s']. exact H.
Qed.

(** The amounts of one generated row, against the flag that was drawn. *)
Lemma gen_row_amounts (m c : string) (s : rng) :
  let x := fst (gen_row m c s) in
  (1000 <= Invoice_Amount (snd x) /\ Invoice_Amount (snd x) < 5000)%Q
  /\ (fst x = false -> Disputed_Amount (snd x) = 0%Q)
  /\ (fst x = true ->
      (0 <= Disputed_Amount (snd x)
       /\ Disputed_Amount (snd x) < 0.3 * Invoice_Amount (snd x))%Q).
Proof.
  unfold Generator.gen_row, NumpyRandom.bind, NumpyRandom.ret.
  assert (Hinv := uniform_range 1000 5000 s eq_refl).
  destruct (NumpyRandom.uniform rng raw53 1000 5000 s) as [inv s1].
  cbn [fst] in Hinv.
  destruct (NumpyRandom.rand rng raw53 s1) as [r s2].
  destruct (Qltb r 0.2).
  - assert (Hpos : (0 < inv * 0.3)%Q) by lra.
    assert (Hd := uniform_range 0 (inv * 0.3) s2 Hpos).
    destruct (NumpyRandom.uniform rng raw53 0 (inv * 0.3) s2) as [d s3].
    cbn [fst] in Hd.
    repeat match goal with
           | |- context [let (_, _) := ?e in _] => destruct e
           end.
    cbn [fst snd Invoice_Amount Disputed_Amount].
    split; [exact Hinv|]. split; [discriminate|]. intros _.
    split; [apply Hd|]. lra.
  - repeat match goal with
           | |- context [let (_, _) := ?e in _] => destruct e
           end.
    cbn [fst snd Invoice_Amount Disputed_Amount].
    split; [exact Hinv|]. split; [reflexivity|]. discriminate.
Qed.

(** The dispute fields of one generated row, against the flag. *)
Lemma gen_row_dispute_fields (m c : string) (s : rng) :
  let x := fst (gen_row m c s) in
  (Dispute_Type (snd x) = None <-> fst x = false)
  /\ (fst x = false -> Settlement_Status (snd x) = "Settled")
  /\ (fst x = true ->
      (Dispute_Type (snd x) = Some "Rate Dispute"
       \/ Dispute_Type (snd x) = Some "Volume Dispute")
      /\ (Settlement_Status (snd x) = "Settled"
          \/ Settlement_Status (snd x) = "Unsettled")).
Proof.
  unfold Generator.gen_row, NumpyRandom.bind, NumpyRandom.ret,
    NumpyRandom.choice, NumpyRandom.randint, NumpyRandom.bind, NumpyRandom.ret.
  destruct (NumpyRandom.uniform rng raw53 1000 5000 s) as [inv s1].
  destruct (NumpyRandom.rand rng raw53 s1) as [r s2].
  destruct (Qltb r 0.2).
  - destruct (NumpyRandom.uniform rng raw53 0 (inv * 0.3) s2) as [d s3].
    cbn [List.length].
    destruct (raw_below 3 s3) as [i1 s4]. cbv beta iota zeta.
    destruct (raw_below 2 s4) as [i2 s5]. cbv beta iota zeta.
    destruct (raw_below 2 s5) as [i3 s6].
    cbn [fst snd Dispute_Type Settlement_Status List.length].
    assert (H2 : (i2 mod 2 < 2)%nat) by (apply Nat.mod_upper_bound; discriminate).
    assert (H3 : (i3 mod 2 < 2)%nat) by (apply Nat.mod_upper_bound; discriminate).
    split; [split; discriminate|]. split; [discriminate|]. intros _.
    destruct (i2 mod 2)%nat as [|[|?]]; destruct (i3 mod 2)%nat as [|[|?]];
      try lia; simpl; auto.
  - cbn [List.length]. destruct (raw_below 3 s2) as [i1 s4].
    cbn [fst snd Dispute_Type Settlement_Status].
    split; [split; reflexivity|]. split; [reflexivity|]. discriminate.
Qed.

End GeneratorFacts.

Lemma generate_from_labels (rng : Type) (raw53 : rng -> Z * rng)
      (raw_below : nat -> rng -> nat * rng) (s : rng) :
  map (fun r => (Invoice_Month r, Carrier_Name r))
      (Generator.generate_from rng raw53 raw_below s)
  = list_prod months carriers.
Proof.
  unfold Generator.generate_from, Generator.generate_trace.
  rewrite map_map. apply (gen_loops_labels rng raw53 raw_below).
Qed.

Lemma generate_from_length (rng : Type) (raw53 : rng -> Z * rng)
      (raw_below : nat -> rng -> nat * rng) (s : rng) :
  List.length (Generator.generate_from rng raw53 raw_below s) = 120%nat.
Proof.
  rewrite <- (length_map (fun r => (Invoice_Month r, Carrier_Name r))).
  rewrite generate_from_labels. reflexivity.
Qed.

(** C1. From every state of the random source, hence for every seed, the
    generator returns exactly 120 records: the (month, carrier) labels of
    the records, read in generation order, are the product of the twelve
    months "2024-01".."2024-12" with the ten labels "Carrier 1".."Carrier 10",
    month-major and carrier-minor, and no pair occurs twice. *)
Theorem generate_one_record_per_month_and_carrier :
  forall (rng : Type) (raw53 : rng -> Z * rng)
         (raw_below : nat -> rng -> nat * rng) (s : rng),
    let df := Generator.generate_from rng raw53 raw_below s in
    months = ["2024-01"; "2024-02"; "2024-03"; "2024-04"; "2024-05"; "2024-06";
              "2024-07"; "2024-08"; "2024-09"; "2024-10"; "2024-11"; "2024-12"]
    /\ carriers = ["Carrier 1"; "Carrier 2"; "Carrier 3"; "Carrier 4";
                   "Carrier 5"; "Carrier 6"; "Carrier 7"; "Carrier 8";
                   "Carrier 9"; "Carrier 10"]
    /\ map (fun r => (Invoice_Month r, Carrier_Name r)) df
       = list_prod months carriers
    /\ List.length df = 120%nat
    /\ NoDup (map (fun r => (Invoice_Month r, Carrier_Name r)) df).
Proof.
  intros rng raw53 raw_below s df.
  assert (Hlabels := generate_from_labels rng raw53 raw_below s).
  fold df in Hlabels.
  split; [reflexivity|]. split; [reflexivity|]. split; [exact Hlabels|].
  split.
  - apply generate_from_length.
  - rewrite Hlabels.
    apply NoDup_list_prod; apply NoDup_strings; vm_compute; reflexivity.
Qed.

(** C3. Every generated record, taken with the dispute flag drawn for it:
    when the flag is false the disputed amount is exactly 0; when it is true
    the disputed amount is at least 0 and strictly below 0.3 times the
    invoice amount.  (Amounts are exact rationals.) *)
Theorem generated_disputed_amount_bounds :
  forall (rng : Type) (raw53 : rng -> Z * rng)
         (raw_below : nat -> rng -> nat * rng) (s : rng),
    Forall (fun x : bool * Row =>
              let (is_disputed, r) := x in
              (is_disputed = false -> Disputed_Amount r = 0%Q)
              /\ (is_disputed = true ->
                  (0 <= Disputed_Amount r
                   /\ Disputed_Amount r < 0.3 * Invoice_Amount r)%Q))
           (Generator.generate_trace rng raw53 raw_below s).
Proof.
  intros rng raw53 raw_below s. unfold Generator.generate_trace.
  apply gen_loops_Forall. intros m c t.
  pose proof (gen_row_amounts rng raw53 raw_below m c t) as H.
  cbv zeta in H.
  destruct (fst (Generator.gen_row rng raw53 raw_below m c t)) as [d r].
  cbn [fst snd] in H. tauto.
Qed.

(** C4. Every generated record, taken with the dispute flag drawn for it:
    the dispute type is null exactly when the flag is false, and the
    settlement status is "Settled" whenever the flag is false. *)
Theorem generated_dispute_fields :
  forall (rng : Type) (raw53 : rng -> Z * rng)
         (raw_below : nat -> rng -> nat * rng) (s : rng),
    Forall (fun x : bool * Row =>
              let (is_disputed, r) := x in
              (Dispute_Type r = None <-> is_disputed = false)
              /\ (is_disputed = false -> Settlement_Status r = "Settled"))
           (Generator.generate_trace rng raw53 raw_below s).
Proof.
  intros rng raw53 raw_below s. unfold Generator.generate_trace.
  apply gen_loops_Forall. intros m c t.
  pose proof (gen_row_dispute_fields rng raw53 raw_below m c t) as H.
  cbv zeta in H.
  destruct (fst (Generator.gen_row rng raw53 raw_below m c t)) as [d r].
  cbn [fst snd] in H. tauto.
Qed.

(** ** The filter stage *)

Lemma selector_accepts_iff (selector value : string) :
  selector_accepts selector value = true <-> selector = "All" \/ value = selector.
Proof.
  unfold selector_accepts. rewrite orb_true_iff, !String.eqb_eq. reflexivity.
Qed.

(** The two conditional narrowings of the source are the one-pass filter of
    the specification. *)
Lemma filtered_df_applyFilters (df : DataFrame) (c m : string) :
  filtered_df df c m = applyFilters df c m.
Proof.
  unfold filtered_df, applyFilters, selector_accepts.
  destruct (c =? "All"); destruct (m =? "All"); cbn [negb orb].
  - symmetry. apply filter_all. reflexivity.
  - apply filter_ext. reflexivity.
  - apply filter_ext. intros r. rewrite andb_true_r. reflexivity.
  - apply filter_filter.
Qed.

(** C2. The filter keeps a record exactly when every selector other than
    "All" equals the record's field (string equality, so case-sensitive and
    never partial): it is the one-pass conjunction filter, it keeps the
    records in their input order, and with both selectors "All" it returns
    the input unchanged, which for the generated data is all 120 records. *)
Theorem filter_semantics :
  forall (df : DataFrame) (carrier_filter month_filter : string),
    filtered_df df carrier_filter month_filter
    = applyFilters df carrier_filter month_filter
    /\ (forall r,
          In r (filtered_df df carrier_filter month_filter)
          <-> In r df
              /\ (carrier_filter = "All" \/ Carrier_Name r = carrier_filter)
              /\ (month_filter = "All" \/ Invoice_Month r = month_filter))
    /\ subseq (filtered_df df carrier_filter month_filter) df
    /\ filtered_df df "All" "All" = df
    /\ (forall (rng : Type) (raw53 : rng -> Z * rng)
               (raw_below : nat -> rng -> nat * rng) (s : rng),
          List.length
            (filtered_df (Generator.generate_from rng raw53 raw_below s)
                         "All" "All") = 120%nat).
Proof.
  intros df c m. split; [apply filtered_df_applyFilters|].
  split.
  { intros r. rewrite filtered_df_applyFilters. unfold applyFilters.
    rewrite filter_In, andb_true_iff, !selector_accepts_iff. reflexivity. }
  split.
  { rewrite filtered_df_applyFilters. apply filter_subseq. }
  split; [reflexivity|].
  intros rng raw53 raw_below s.
  change (filtered_df (Generator.generate_from rng raw53 raw_below s) "All" "All")
    with (Generator.generate_from rng raw53 raw_below s).
  apply generate_from_length.
Qed.

(** ** Distinct values *)

Lemma existsb_eqb_In (x : string) (seen : list string) :
  existsb (String.eqb x) seen = true <-> In x seen.
Proof.
  rewrite existsb_exists. split.
  - intros [y [Hy Heq]]. apply String.eqb_eq in Heq. subst. exact Hy.
  - intros H. exists x. split; [exact H | apply String.eqb_refl].
Qed.

Lemma unique_from_In (x : string) (l seen : list string) :
  In x (unique_from seen l) <-> In x l /\ ~ In x seen.
Proof.
  revert seen. induction l as [|y l IH]; intros seen; simpl.
  - tauto.
  - destruct (existsb (String.eqb y) seen) eqn:E.
    + apply existsb_eqb_In in E. rewrite IH. split.
      * intros [H1 H2]. tauto.
      * intros [[H1|H1] H2]; [subst; contradiction | tauto].
    + assert (Hy : ~ In y seen).
      { intros H. apply existsb_eqb_In in H. congruence. }
      simpl. rewrite IH. simpl. split.
      * intros [H|[H1 H2]]; [subst; tauto | tauto].
      * intros [[H1|H1] H2]; [tauto|].
        destruct (string_dec y x) as [Heq|Hne]; [tauto|]. right. tauto.
Qed.

Lemma unique_In (x : string) (l : list string) : In x (unique l) <-> In x l.
Proof. unfold unique. rewrite unique_from_In. simpl. tauto. Qed.

(** ** The page *)

Lemma page_empty (df : DataFrame) (c m : string) :
  filtered_df df c m = [] -> page df c m = NoData no_data_message.
Proof. intros H. unfold page. rewrite H. reflexivity. Qed.

Lemma tabs_of_nonempty (df : DataFrame) :
  df <> [] ->
  tabs_of df =
  {| tab1_dataframe := df;
     tab1_processed_vs_disputed := Plot (processed_vs_disputed df);
     tab1_monthly_disputes := Plot (monthly_disputes df);
     tab2_pending_reconciliation_summary := Plot (pending_reconciliation_summary df);
     tab2_reconciliation_trend := Plot (reconciliation_trend df);
     tab3_dispute_type := Plot (dispute_type df);
     tab3_dispute_status := Plot (dispute_status df);
     tab4_settlement_status := Plot (settlement_status df);
     tab4_settled_vs_outstanding := Plot (settled_vs_outstanding df) |}.
Proof. destruct df; [congruence | reflexivity]. Qed.

(** C5. When the selection leaves no record, the page is the no-data warning
    alone and no tab is computed; and each of the eight chart tables of an
    empty frame is the empty table (every one is a total function, so none
    raises). *)
Theorem empty_selection_reports_no_data :
  forall (df : DataFrame) (carrier_filter month_filter : string),
    filtered_df df carrier_filter month_filter = [] ->
    page df carrier_filter month_filter = NoData no_data_message
    /\ processed_vs_disputed [] = []
    /\ monthly_disputes [] = []
    /\ pending_reconciliation_summary [] = []
    /\ reconciliation_trend [] = []
    /\ dispute_type [] = []
    /\ dispute_status [] = []
    /\ settlement_status [] = []
    /\ settled_vs_outstanding [] = [].
Proof.
  intros df c m H. split; [apply page_empty; exact H|].
  repeat split; reflexivity.
Qed.

Lemma empty_selection_reports_no_data_witness :
  filtered_df Lcg.sample_data "Carrier 3" "2025-01" = []
  /\ page Lcg.sample_data "Carrier 3" "2025-01" = NoData no_data_message.
Proof.
  assert (H : filtered_df Lcg.sample_data "Carrier 3" "2025-01" = [])
    by (vm_compute; reflexivity).
  split; [exact H|].
  exact (proj1 (empty_selection_reports_no_data
                  Lcg.sample_data "Carrier 3" "2025-01" H)).
Defined.

(** A non-empty selection of a month other than "All" that holds fewer than
    3 distinct carriers: the page carries the warning naming their number,
    and all eight chart tables are computed from the selection. *)
Lemma coverage_warning_nonempty :
  forall (df : DataFrame) (carrier_filter month_filter : string),
    let filtered := filtered_df df carrier_filter month_filter in
    month_filter <> "All" ->
    filtered <> [] ->
    (carrier_count filtered < 3)%nat ->
    page df carrier_filter month_filter
    = Dashboard
        (Some (coverage_message (carrier_count filtered)))
        {| tab1_dataframe := filtered;
           tab1_processed_vs_disputed := Plot (processed_vs_disputed filtered);
           tab1_monthly_disputes := Plot (monthly_disputes filtered);
           tab2_pending_reconciliation_summary :=
             Plot (pending_reconciliation_summary filtered);
           tab2_reconciliation_trend := Plot (reconciliation_trend filtered);
           tab3_dispute_type := Plot (dispute_type filtered);
           tab3_dispute_status := Plot (dispute_status filtered);
           tab4_settlement_status := Plot (settlement_status filtered);
           tab4_settled_vs_outstanding := Plot (settled_vs_outstanding filtered) |}.
Proof.
  intros df c m filtered Hm Hne Hlt. unfold page. fold filtered.
  rewrite (tabs_of_nonempty filtered Hne).
  destruct filtered as [|r rest] eqn:E; [congruence|]. cbn [empty].
  apply String.eqb_neq in Hm. rewrite Hm.
  apply Nat.ltb_lt in Hlt. rewrite Hlt. reflexivity.
Qed.

(** ** Group-by *)

Lemma key_eqb_eq (a b : Key) : key_eqb a b = true <-> a = b.
Proof.
  revert b. induction a as [|x a IH]; intros [|y b]; simpl;
    try (split; [discriminate | discriminate]).
  - tauto.
  - rewrite andb_true_iff, String.eqb_eq, IH. split.
    + intros [H1 H2]. subst. reflexivity.
    + intros H. inversion H. tauto.
Qed.

Lemma key_eqb_refl (k : Key) : key_eqb k k = true.
Proof. apply key_eqb_eq. reflexivity. Qed.

Lemma existsb_key_eqb_In (k : Key) (seen : list Key) :
  existsb (key_eqb k) seen = true <-> In k seen.
Proof.
  rewrite existsb_exists. split.
  - intros [y [Hy Heq]]. apply key_eqb_eq in Heq. subst. exact Hy.
  - intros H. exists k. split; [exact H | apply key_eqb_refl].
Qed.

Lemma unique_keys_from_In (k : Key) (l seen : list Key) :
  In k (unique_keys_from seen l) <-> In k l /\ ~ In k seen.
Proof.
  revert seen. induction l as [|y l IH]; intros seen; simpl.
  - tauto.
  - destruct (existsb (key_eqb y) seen) eqn:E.
    + apply existsb_key_eqb_In in E. rewrite IH. split.
      * intros [H1 H2]. tauto.
      * intros [[H1|H1] H2]; [subst; contradiction | tauto].
    + assert (Hy : ~ In y seen).
      { intros H. apply existsb_key_eqb_In in H. congruence. }
      simpl. rewrite IH. simpl. split.
      * intros [H|[H1 H2]]; [subst; tauto | tauto].
      * intros [[H1|H1] H2]; [tauto|].
        destruct (list_eq_dec string_dec y k) as [Heq|Hne]; [tauto|].
        right. tauto.
Qed.

Lemma unique_keys_from_NoDup (l seen : list Key) :
  NoDup (unique_keys_from seen l).
Proof.
  revert seen. induction l as [|y l IH]; intros seen; simpl.
  - constructor.
  - destruct (existsb (key_eqb y) seen); [apply IH|].
    constructor; [|apply IH].
    rewrite unique_keys_from_In. simpl. tauto.
Qed.

Lemma insert_sorted_perm (k : Key) (l : list Key) :
  Permutation (insert_sorted k l) (k :: l).
Proof.
  induction l as [|y l IH]; simpl.
  - apply Permutation_refl.
  - destruct (key_leb k y).
    + apply Permutation_refl.
    + eapply perm_trans; [apply perm_skip; exact IH | apply perm_swap].
Qed.

Lemma sort_keys_perm (l : list Key) : Permutation (sort_keys l) l.
Proof.
  induction l as [|k l IH]; simpl.
  - constructor.
  - eapply perm_trans; [apply insert_sorted_perm|]. apply perm_skip. exact IH.
Qed.

Lemma keys_of_In (by_cols : list Column) (df : DataFrame) (k : Key) :
  In k (keys_of by_cols df)
  <-> exists r, In r df /\ row_key by_cols r = Some k.
Proof.
  unfold keys_of. rewrite in_flat_map. split.
  - intros [r [Hr Hk]]. exists r. split; [exact Hr|].
    destruct (row_key by_cols r) as [k'|]; simpl in Hk; [|contradiction].
    destruct Hk as [Hk|[]]. subst. reflexivity.
  - intros [r [Hr Hk]]. exists r. split; [exact Hr|].
    rewrite Hk. left. reflexivity.
Qed.

(** The group keys are the keys of the rows, each listed once. *)
Lemma group_keys_NoDup (by_cols : list Column) (df : DataFrame) :
  NoDup (group_keys by_cols df).
Proof.
  unfold group_keys. eapply Permutation_NoDup.
  - apply Permutation_sym. apply sort_keys_perm.
  - apply unique_keys_from_NoDup.
Qed.

Lemma group_keys_In (by_cols : list Column) (df : DataFrame) (k : Key) :
  In k (group_keys by_cols df)
  <-> exists r, In r df /\ row_key by_cols r = Some k.
Proof.
  rewrite <- keys_of_In. unfold group_keys, unique_keys. split.
  - intros H. apply (Permutation_in _ (sort_keys_perm _)) in H.
    apply unique_keys_from_In in H. tauto.
  - intros H. apply (Permutation_in _ (Permutation_sym (sort_keys_perm _))).
    apply unique_keys_from_In. simpl. tauto.
Qed.

Lemma in_group_iff (by_cols : list Column) (k : Key) (r : Row) :
  in_group by_cols k r = true <-> row_key by_cols r = Some k.
Proof.
  unfold in_group. destruct (row_key by_cols r) as [k'|].
  - rewrite key_eqb_eq. split; congruence.
  - split; discriminate.
Qed.

(** A row of the frame lies in one of the groups exactly when it has a key. *)
Lemma group_keys_cover (by_cols : list Column) (df : DataFrame) (r : Row) :
  In r df ->
  existsb (fun k => in_group by_cols k r) (group_keys by_cols df)
  = has_key by_cols r.
Proof.
  intros Hr. unfold has_key. destruct (row_key by_cols r) as [k|] eqn:E.
  - apply existsb_exists. exists k. split.
    + apply group_keys_In. exists r. tauto.
    + apply in_group_iff. exact E.
  - apply not_true_is_false. intros H. apply existsb_exists in H.
    destruct H as [k [_ Hk]]. apply in_group_iff in Hk. congruence.
Qed.

(** Two groups with different keys share no row. *)
Lemma groups_disjoint (by_cols : list Column) (k : Key) (ks : list Key) (r : Row) :
  ~ In k ks ->
  in_group by_cols k r && existsb (fun k' => in_group by_cols k' r) ks = false.
Proof.
  intros Hk. apply not_true_is_false. intros H. apply andb_true_iff in H.
  destruct H as [H1 H2]. apply in_group_iff in H1.
  apply existsb_exists in H2. destruct H2 as [k' [Hin Hk']].
  apply in_group_iff in Hk'. apply Hk. congruence.
Qed.

(** ** Sums and counts over groups *)

Lemma length_filter_split (p q : Row -> bool) (df : DataFrame) :
  (forall r, In r df -> p r && q r = false) ->
  (List.length (filter p df) + List.length (filter q df)
   = List.length (filter (fun r => p r || q r) df))%nat.
Proof.
  induction df as [|r df IH]; intros Hdis.
  - reflexivity.
  - assert (IH' := IH (fun x Hx => Hdis x (or_intror Hx))).
    assert (Hr := Hdis r (or_introl eq_refl)).
    simpl. destruct (p r), (q r); try discriminate; simpl; lia.
Qed.

Lemma count_over_keys (by_cols : list Column) (ks : list Key) (df : DataFrame) :
  NoDup ks ->
  list_sum (map (fun k => List.length (filter (in_group by_cols k) df)) ks)
  = List.length (filter (fun r => existsb (fun k => in_group by_cols k r) ks) df).
Proof.
  intros Hnd. induction Hnd as [|k ks Hk Hnd IH].
  - simpl. rewrite (filter_none (fun _ : Row => false)); reflexivity.
  - cbn [map list_sum fold_right existsb].
    fold (list_sum (map (fun k => List.length (filter (in_group by_cols k) df)) ks)).
    rewrite IH. apply length_filter_split.
    intros r _. apply groups_disjoint. exact Hk.
Qed.

(** ** Settlement status counts *)

(** C9, as the specification states it, fails: for two settled invoices of
    two carriers the table of line 168 has two rows, one per carrier, each
    counting 1, where grouping by settlement status alone gives the single
    row ("Settled", 2). *)
Lemma settlement_status_groups_by_carrier_too :
  settlement_status two_carriers_settled
  = [(["Carrier 1"; "Settled"], 1%nat); (["Carrier 2"; "Settled"], 1%nat)]
  /\ settlement_status_counts two_carriers_settled = [(["Settled"], 2%nat)]
  /\ List.length (unique (map Settlement_Status two_carriers_settled)) = 1%nat
  /\ List.length (settlement_status two_carriers_settled) = 2%nat
  /\ Forall (fun row : Key * nat =>
               snd row
               <> List.length (filter (fun r => Settlement_Status r =? "Settled")
                                      two_carriers_settled))
            (settlement_status two_carriers_settled).
Proof.
  split; [reflexivity|]. split; [reflexivity|]. split; [reflexivity|].
  split; [reflexivity|].
  repeat constructor; discriminate.
Qed.

Lemma filter_map_commute {A B} (f : A -> B) (p : B -> bool) (l : list A) :
  filter p (map f l) = map f (filter (fun x => p (f x)) l).
Proof.
  induction l as [|x l IH]; simpl; [reflexivity|].
  destruct (p (f x)); simpl; rewrite IH; reflexivity.
Qed.

Lemma settlement_status_rows (df : DataFrame) :
  settlement_status df
  = map (fun k => (k, List.length
                        (filter (in_group [col_carrier; col_settlement] k) df)))
        (group_keys [col_carrier; col_settlement] df).
Proof. unfold settlement_status, size, groupby. rewrite map_map. reflexivity. Qed.

Lemma in_group_carrier_settlement (c s : string) (r : Row) :
  in_group [col_carrier; col_settlement] [c; s] r
  = (Carrier_Name r =? c) && (Settlement_Status r =? s).
Proof.
  unfold in_group. cbn. rewrite andb_true_r. reflexivity.
Qed.

(** C9, amended.  The table of line 168 groups by carrier and settlement
    status together: it has one row per distinct (carrier, settlement
    status) pair present in the filtered records, the count of a row is the
    number of filtered records with that carrier and that status, and the
    counts of the rows of one settlement status add up to the number of
    filtered records having that status. *)
Theorem settlement_status_counts_per_carrier_and_status :
  forall df : DataFrame,
    NoDup (map fst (settlement_status df))
    /\ (forall c s,
          In [c; s] (map fst (settlement_status df))
          <-> exists r, In r df /\ Carrier_Name r = c /\ Settlement_Status r = s)
    /\ (forall k n,
          In (k, n) (settlement_status df) ->
          exists c s,
            k = [c; s]
            /\ n = List.length
                     (filter (fun r => (Carrier_Name r =? c)
                                       && (Settlement_Status r =? s)) df))
    /\ (forall s,
          list_sum (map snd (filter (fun row => nth 1 (fst row) "" =? s)
                                    (settlement_status df)))
          = List.length (filter (fun r => Settlement_Status r =? s) df)).
Proof.
  intros df. rewrite settlement_status_rows.
  assert (Hkeys : map fst
            (map (fun k => (k, List.length
                    (filter (in_group [col_carrier; col_settlement] k) df)))
                 (group_keys [col_carrier; col_settlement] df))
          = group_keys [col_carrier; col_settlement] df).
  { rewrite map_map. cbn [fst]. apply map_id. }
  rewrite Hkeys. split; [apply group_keys_NoDup|]. split.
  { intros c s. rewrite group_keys_In. split.
    - intros [r [Hr Hk]]. exists r. cbn in Hk. inversion Hk. tauto.
    - intros [r [Hr [Hc Hs]]]. exists r. split; [exact Hr|].
      cbn. rewrite Hc, Hs. reflexivity. }
  split.
  { intros k n Hin. apply in_map_iff in Hin. destruct Hin as [k' [Heq Hk']].
    inversion Heq; subst k' n. apply group_keys_In in Hk'.
    destruct Hk' as [r [_ Hk]]. cbn in Hk. inversion Hk; subst k.
    exists (Carrier_Name r), (Settlement_Status r). split; [reflexivity|].
    f_equal. apply filter_ext. intros x. apply in_group_carrier_settlement. }
  intros s. rewrite filter_map_commute, map_map. cbn [fst snd].
  rewrite count_over_keys
    by (apply NoDup_filter; apply group_keys_NoDup).
  f_equal. apply filter_ext_in. intros r Hr.
  assert (Hk0 : In [Carrier_Name r; Settlement_Status r]
                   (group_keys [col_carrier; col_settlement] df)).
  { apply group_keys_In. exists r. split; [exact Hr | reflexivity]. }
  destruct (Settlement_Status r =? s) eqn:E.
  - apply existsb_exists. exists [Carrier_Name r; Settlement_Status r]. split.
    + apply filter_In. split; [exact Hk0 | exact E].
    + apply in_group_iff. reflexivity.
  - apply not_true_is_false. intros H. apply existsb_exists in H.
    destruct H as [k [Hin Hg]]. apply filter_In in Hin. destruct Hin as [_ Hs].
    apply in_group_iff in Hg. cbn in Hg. inversion Hg; subst k.
    cbn in Hs. congruence.
Qed.

(** ** Dispute types by carrier *)

Lemma keys_of_undisputed (df : DataFrame) :
  Forall (fun r => Dispute_Type r = None) df ->
  keys_of [col_carrier; col_dispute_type] df = [].
Proof.
  intros Hall. induction Hall as [|r rest Hr _ IH]; [reflexivity|].
  unfold keys_of in *. cbn [flat_map row_key]. unfold col_dispute_type at 1.
  rewrite Hr. exact IH.
Qed.

(** C10. For a non-empty frame in which no record is disputed, that is, the
    dispute type of every record is null, the table of lines 138-140 is
    empty although its input is not: no row has a key, and the chart is
    drawn from the empty table. *)
Theorem dispute_type_empty_when_nothing_disputed :
  forall df : DataFrame,
    df <> [] ->
    Forall (fun r => Dispute_Type r = None) df ->
    dispute_type df = []
    /\ chart df dispute_type = Plot [].
Proof.
  intros df Hne Hall.
  assert (Hkeys := keys_of_undisputed df Hall).
  assert (Hd : dispute_type df = []).
  { unfold dispute_type, groupby, group_keys. rewrite Hkeys. reflexivity. }
  split; [exact Hd|].
  unfold chart. destruct df; [congruence|]. cbn [empty negb].
  rewrite Hd. reflexivity.
Qed.

Lemma dispute_type_empty_when_nothing_disputed_witness :
  two_carriers_settled <> []
  /\ dispute_type two_carriers_settled = []
  /\ chart two_carriers_settled dispute_type = Plot [].
Proof.
  split; [discriminate|].
  apply (dispute_type_empty_when_nothing_disputed two_carriers_settled).
  - discriminate.
  - repeat constructor.
Defined.

(** ** The pipeline run on the stand-in source *)

Example sample_all_all :
  List.length (filtered_df Lcg.sample_data "All" "All") = 120%nat.
Proof. vm_compute. reflexivity. Qed.

Example sample_one_carrier :
  List.length (filtered_df Lcg.sample_data "Carrier 3" "All") = 12%nat
  /\ map fst (carrier_totals (filtered_df Lcg.sample_data "Carrier 3" "All"))
     = [["Carrier 3"]].
Proof. vm_compute. split; reflexivity. Qed.

Example sample_one_cell :
  map (fun r => (Carrier_Name r, Invoice_Month r))
      (filtered_df Lcg.sample_data "Carrier 1" "2024-01")
  = [("Carrier 1", "2024-01")].
Proof. vm_compute. reflexivity. Qed.

Example sample_case_sensitive :
  filtered_df Lcg.sample_data "carrier 1" "All" = [].
Proof. vm_compute. reflexivity. Qed.

Example sample_group_order :
  map fst (carrier_totals Lcg.sample_data)
  = [["Carrier 1"]; ["Carrier 10"]; ["Carrier 2"]; ["Carrier 3"]; ["Carrier 4"];
     ["Carrier 5"]; ["Carrier 6"]; ["Carrier 7"]; ["Carrier 8"]; ["Carrier 9"]].
Proof. vm_compute. reflexivity. Qed.

(** * Further properties of the source *)

(** ** Values of the generated fields *)

Section GeneratedValues.

Variable rng : Type.
Variable raw53 : rng -> Z * rng.
Variable raw_below : nat -> rng -> nat * rng.

(** The reconciliation status that one pass of the loop body draws. *)
Lemma gen_row_reconciliation (m c : string) (s : rng) :
  In (Reconciliation_Status
        (snd (fst (Generator.gen_row rng raw53 raw_below m c s))))
     ["Pending"; "Completed"; "In Progress"].
Proof.
  unfold Generator.gen_row, NumpyRandom.bind, NumpyRandom.ret,
    NumpyRandom.choice, NumpyRandom.randint, NumpyRandom.bind, NumpyRandom.ret.
  destruct (NumpyRandom.uniform rng raw53 1000 5000 s) as [inv s1].
  destruct (NumpyRandom.rand rng raw53 s1) as [r s2].
  assert (Hnth : forall i, In (nth (i mod 3) ["Pending"; "Completed"; "In Progress"]
                                   "Pending")
                              ["Pending"; "Completed"; "In Progress"]).
  { intros i. apply nth_In. change (i mod 3 < 3)%nat.
    apply Nat.mod_upper_bound. discriminate. }
  destruct (Qltb r 0.2).
  - destruct (NumpyRandom.uniform rng raw53 0 (inv * 0.3) s2) as [d s3].
    cbn [List.length].
    destruct (raw_below 3 s3) as [i1 s4]. cbv beta iota zeta.
    destruct (raw_below 2 s4) as [i2 s5]. cbv beta iota zeta.
    destruct (raw_below 2 s5) as [i3 s6].
    cbn [fst snd Reconciliation_Status]. apply Hnth.
  - cbn [List.length]. destruct (raw_below 3 s2) as [i1 s4].
    cbn [fst snd Reconciliation_Status]. apply Hnth.
Qed.

Lemma generate_trace_Forall (P : bool * Row -> Prop) (s : rng) :
  (forall m c t, P (fst (Generator.gen_row rng raw53 raw_below m c t))) ->
  Forall P (Generator.generate_trace rng raw53 raw_below s).
Proof.
  intros H. unfold Generator.generate_trace. apply gen_loops_Forall. exact H.
Qed.

Lemma generate_from_Forall (P : Row -> Prop) (s : rng) :
  (forall m c t, P (snd (fst (Generator.gen_row rng raw53 raw_below m c t)))) ->
  Forall P (Generator.generate_from rng raw53 raw_below s).
Proof.
  intros H. unfold Generator.generate_from. apply Forall_map.
  apply generate_trace_Forall. exact H.
Qed.

(** A generated row with no dispute type carries no disputed amount and is
    settled. *)
Lemma gen_row_undisputed (m c : string) (s : rng) :
  let r := snd (fst (Generator.gen_row rng raw53 raw_below m c s)) in
  Dispute_Type r = None ->
  Disputed_Amount r = 0%Q /\ Settlement_Status r = "Settled".
Proof.
  intros r Hnone. subst r.
  pose proof (gen_row_amounts rng raw53 raw_below m c s) as Ha.
  pose proof (gen_row_dispute_fields rng raw53 raw_below m c s) as Hd.
  cbv zeta in Ha, Hd.
  destruct (fst (Generator.gen_row rng raw53 raw_below m c s)) as [d r].
  cbn [fst snd] in *. destruct Hd as [Hiff [Hs _]]. destruct Ha as [_ [H0 _]].
  apply Hiff in Hnone. split; [apply H0 | apply Hs]; exact Hnone.
Qed.

End GeneratedValues.

(** X1. Every generated record has an invoice amount of at least 1000 and
    at most 5000.  (The upper bound is stated closed: the rounded sum
    [1000 + 4000 * u] of the code can reach 5000 and never passes it.) *)
Theorem generated_invoice_amount_range :
  forall (rng : Type) (raw53 : rng -> Z * rng)
         (raw_below : nat -> rng -> nat * rng) (s : rng),
    Forall (fun r => (1000 <= Invoice_Amount r /\ Invoice_Amount r <= 5000)%Q)
           (Generator.generate_from rng raw53 raw_below s).
Proof.
  intros rng raw53 raw_below s. apply generate_from_Forall. intros m c t.
  pose proof (gen_row_amounts rng raw53 raw_below m c t) as H.
  cbv zeta in H. destruct H as [[Hlo Hhi] _].
  split; [exact Hlo | apply Qlt_le_weak; exact Hhi].
Qed.

(** X2. Every generated record has one of the three reconciliation statuses
    "Pending", "Completed", "In Progress". *)
Theorem generated_reconciliation_status_values :
  forall (rng : Type) (raw53 : rng -> Z * rng)
         (raw_below : nat -> rng -> nat * rng) (s : rng),
    Forall (fun r => Reconciliation_Status r = "Pending"
                     \/ Reconciliation_Status r = "Completed"
                     \/ Reconciliation_Status r = "In Progress")
           (Generator.generate_from rng raw53 raw_below s).
Proof.
  intros rng raw53 raw_below s. apply generate_from_Forall. intros m c t.
  pose proof (gen_row_reconciliation rng raw53 raw_below m c t) as H.
  simpl in H. intuition.
Qed.

(** X3. Every generated record that was drawn as disputed has the dispute
    type "Rate Dispute" or "Volume Dispute" and the settlement status
    "Settled" or "Unsettled". *)
Theorem generated_disputed_field_values :
  forall (rng : Type) (raw53 : rng -> Z * rng)
         (raw_below : nat -> rng -> nat * rng) (s : rng),
    Forall (fun x : bool * Row =>
              let (is_disputed, r) := x in
              is_disputed = true ->
              (Dispute_Type r = Some "Rate Dispute"
               \/ Dispute_Type r = Some "Volume Dispute")
              /\ (Settlement_Status r = "Settled"
                  \/ Settlement_Status r = "Unsettled"))
           (Generator.generate_trace rng raw53 raw_below s).
Proof.
  intros rng raw53 raw_below s. apply generate_trace_Forall. intros m c t.
  pose proof (gen_row_dispute_fields rng raw53 raw_below m c t) as H.
  cbv zeta in H.
  destruct (fst (Generator.gen_row rng raw53 raw_below m c t)) as [d r].
  cbn [fst snd] in H. tauto.
Qed.

(** X4. Every generated record that is unsettled has a dispute type: the
    rows of [outstanding_settlements] are all disputed invoices. *)
Theorem generated_outstanding_are_disputed :
  forall (rng : Type) (raw53 : rng -> Z * rng)
         (raw_below : nat -> rng -> nat * rng) (s : rng),
    Forall (fun r => Dispute_Type r <> None)
           (outstanding_settlements
              (Generator.generate_from rng raw53 raw_below s)).
Proof.
  intros rng raw53 raw_below s. unfold outstanding_settlements.
  apply Forall_forall. intros r Hr. apply filter_In in Hr.
  destruct Hr as [Hin Hu]. apply String.eqb_eq in Hu.
  pose proof (generate_from_Forall rng raw53 raw_below
                (fun r => Dispute_Type r = None -> Settlement_Status r = "Settled") s)
    as Hall.
  rewrite Forall_forall in Hall. intros Hnone.
  assert (Hs : Settlement_Status r = "Settled").
  { apply Hall; [|exact Hin|exact Hnone]. intros m c t.
    apply (gen_row_undisputed rng raw53 raw_below m c t). }
  rewrite Hs in Hu. discriminate.
Qed.

(** ** Selections of the generated data *)

Lemma filtered_df_labels (df : DataFrame) (c m : string) :
  map row_labels (filtered_df df c m)
  = filter (label_filter c m) (map row_labels df).
Proof.
  rewrite filtered_df_applyFilters. unfold applyFilters.
  rewrite filter_map_commute. reflexivity.
Qed.

Lemma carrier_count_labels (df : DataFrame) :
  carrier_count df = List.length (unique (map snd (map row_labels df))).
Proof. unfold carrier_count. rewrite map_map. reflexivity. Qed.

Lemma nonempty_labels (df : DataFrame) :
  map row_labels df <> [] -> df <> [].
Proof. intros H E. apply H. rewrite E. reflexivity. Qed.

(** The page of a non-empty selection whose number of carriers is known. *)
Lemma page_nonempty (df : DataFrame) (c m : string) (n : nat) :
  filtered_df df c m <> [] ->
  carrier_count (filtered_df df c m) = n ->
  page df c m
  = Dashboard (if negb (m =? "All") && (n <? 3)%nat
               then Some (coverage_message n) else None)
              (tabs_of (filtered_df df c m)).
Proof.
  intros Hne Hn. unfold page. rewrite Hn.
  destruct (filtered_df df c m); [congruence | reflexivity].
Qed.

(** The labels that the selectors keep out of the full month-by-carrier
    grid. *)
Lemma grid_selection (c m : string) :
  In c carriers -> In m months ->
  filter (label_filter c m) (list_prod months carriers) = [(m, c)]
  /\ filter (label_filter c "All") (list_prod months carriers)
     = map (fun mo => (mo, c)) months
  /\ filter (label_filter "All" m) (list_prod months carriers)
     = map (pair m) carriers.
Proof.
  intros Hc Hm. vm_compute in Hc.
  repeat (destruct Hc as [Hc|Hc]; [subst c|]); [..|contradiction];
    (split; [|split; [vm_compute; reflexivity|]]);
    vm_compute in Hm;
    repeat (destruct Hm as [Hm|Hm]; [subst m|]); try contradiction;
    vm_compute; reflexivity.
Qed.

Section GeneratedSelections.

Variable rng : Type.
Variable raw53 : rng -> Z * rng.
Variable raw_below : nat -> rng -> nat * rng.
Variable s : rng.

Abbreviation generated := (Generator.generate_from rng raw53 raw_below s).

Lemma generated_row_labels : map row_labels generated = list_prod months carriers.
Proof. apply generate_from_labels. Qed.

Lemma generated_filtered_labels (c m : string) :
  map row_labels (filtered_df generated c m)
  = filter (label_filter c m) (list_prod months carriers).
Proof. rewrite filtered_df_labels, generated_row_labels. reflexivity. Qed.

End GeneratedSelections.

Lemma generated_options (rng : Type) (raw53 : rng -> Z * rng)
      (raw_below : nat -> rng -> nat * rng) (s : rng) :
  carrier_options (Generator.generate_from rng raw53 raw_below s)
  = "All" :: carriers
  /\ month_options (Generator.generate_from rng raw53 raw_below s)
     = "All" :: months.
Proof.
  unfold carrier_options, month_options.
  split; f_equal.
  - replace (map Carrier_Name (Generator.generate_from rng raw53 raw_below s))
      with (map snd (map row_labels
                         (Generator.generate_from rng raw53 raw_below s)))
      by (rewrite map_map; reflexivity).
    rewrite generated_row_labels. vm_compute. reflexivity.
  - replace (map Invoice_Month (Generator.generate_from rng raw53 raw_below s))
      with (map fst (map row_labels
                         (Generator.generate_from rng raw53 raw_below s)))
      by (rewrite map_map; reflexivity).
    rewrite generated_row_labels. vm_compute. reflexivity.
Qed.


(** X5. The select boxes built from the generated data offer "All" followed
    by the ten carriers in the order "Carrier 1".."Carrier 10", and "All"
    followed by the twelve months in calendar order. *)
Theorem generated_selector_options :
  forall (rng : Type) (raw53 : rng -> Z * rng)
         (raw_below : nat -> rng -> nat * rng) (s : rng),
    carrier_options (Generator.generate_from rng raw53 raw_below s)
    = "All" :: carriers
    /\ month_options (Generator.generate_from rng raw53 raw_below s)
       = "All" :: months.
Proof. exact generated_options. Qed.

(** X6. On the generated data, selecting a carrier and a month of the select
    boxes leaves exactly the one record of that carrier and month; a carrier
    alone leaves its twelve records in month order; a month alone leaves its
    ten records in carrier order. *)
Theorem generated_selection_rows :
  forall (rng : Type) (raw53 : rng -> Z * rng)
         (raw_below : nat -> rng -> nat * rng) (s : rng)
         (carrier_filter month_filter : string),
    In carrier_filter carriers ->
    In month_filter months ->
    let df := Generator.generate_from rng raw53 raw_below s in
    map row_labels (filtered_df df carrier_filter month_filter)
    = [(month_filter, carrier_filter)]
    /\ map row_labels (filtered_df df carrier_filter "All")
       = map (fun mo => (mo, carrier_filter)) months
    /\ map row_labels (filtered_df df "All" month_filter)
       = map (pair month_filter) carriers.
Proof.
  intros rng raw53 raw_below s c m Hc Hm df. unfold df.
  rewrite !generated_filtered_labels. apply grid_selection; assumption.
Qed.

Lemma generated_selection_rows_witness :
  map row_labels (filtered_df Lcg.sample_data "Carrier 3" "2024-05")
  = [("2024-05", "Carrier 3")]
  /\ map row_labels (filtered_df Lcg.sample_data "Carrier 3" "All")
     = map (fun mo => (mo, "Carrier 3")) months
  /\ map row_labels (filtered_df Lcg.sample_data "All" "2024-05")
     = map (pair "2024-05") carriers.
Proof.
  apply (generated_selection_rows Z Lcg.raw53 Lcg.raw_below (Lcg.seed 42)
                                  "Carrier 3" "2024-05").
  - vm_compute. tauto.
  - vm_compute. tauto.
Defined.

(** X7. On the generated data, every selection that the select boxes allow
    shows the tabs, never the no-data warning; the coverage warning appears
    exactly when both a carrier and a month are selected, and then reports
    1 carrier. *)
Theorem generated_page_of_valid_selection :
  forall (rng : Type) (raw53 : rng -> Z * rng)
         (raw_below : nat -> rng -> nat * rng) (s : rng)
         (carrier_filter month_filter : string),
    In carrier_filter carriers ->
    In month_filter months ->
    let df := Generator.generate_from rng raw53 raw_below s in
    page df carrier_filter month_filter
    = Dashboard (Some (coverage_message 1))
                (tabs_of (filtered_df df carrier_filter month_filter))
    /\ page df "All" month_filter
       = Dashboard None (tabs_of (filtered_df df "All" month_filter))
    /\ page df carrier_filter "All"
       = Dashboard None (tabs_of (filtered_df df carrier_filter "All"))
    /\ page df "All" "All" = Dashboard None (tabs_of df).
Proof.
  intros rng raw53 raw_below s c m Hc Hm df.
  destruct (grid_selection c m Hc Hm) as [Hcm [Hc_all Hall_m]].
  pose proof (generated_filtered_labels rng raw53 raw_below s c m) as L1.
  pose proof (generated_filtered_labels rng raw53 raw_below s "All" m) as L2.
  pose proof (generated_filtered_labels rng raw53 raw_below s c "All") as L3.
  fold df in L1, L2, L3. rewrite Hcm in L1. rewrite Hall_m in L2.
  rewrite Hc_all in L3.
  assert (Hmne : (m =? "All") = false).
  { vm_compute in Hm.
    repeat (destruct Hm as [Hm|Hm]; [subst m; reflexivity|]). contradiction. }
  split; [|split; [|split]].
  - rewrite (page_nonempty df c m 1).
    + rewrite Hmne. reflexivity.
    + apply nonempty_labels. rewrite L1. discriminate.
    + rewrite carrier_count_labels, L1. reflexivity.
  - rewrite (page_nonempty df "All" m 10).
    + rewrite Hmne. reflexivity.
    + apply nonempty_labels. rewrite L2. discriminate.
    + rewrite carrier_count_labels, L2. vm_compute. reflexivity.
  - rewrite (page_nonempty df c "All" (carrier_count (filtered_df df c "All"))).
    + reflexivity.
    + apply nonempty_labels. rewrite L3. discriminate.
    + reflexivity.
  - rewrite (page_nonempty df "All" "All" (carrier_count df)).
    + reflexivity.
    + apply nonempty_labels. change (filtered_df df "All" "All") with df.
      unfold df. rewrite generated_row_labels. discriminate.
    + reflexivity.
Qed.

Lemma generated_page_of_valid_selection_witness :
  page Lcg.sample_data "Carrier 3" "2024-05"
  = Dashboard (Some (coverage_message 1))
              (tabs_of (filtered_df Lcg.sample_data "Carrier 3" "2024-05")).
Proof.
  apply (generated_page_of_valid_selection
           Z Lcg.raw53 Lcg.raw_below (Lcg.seed 42) "Carrier 3" "2024-05").
  - vm_compute. tauto.
  - vm_compute. tauto.
Defined.

(** C7. On the data the program generates, for every carrier and month that
    the two select boxes offer: when the month is not "All" and the selection
    holds fewer than 3 distinct carriers, the page carries the warning that
    names the number of distinct carriers, and every one of the eight chart
    tables is computed from the selection. *)
Theorem coverage_warning_on_offered_selections :
  forall (rng : Type) (raw53 : rng -> Z * rng)
         (raw_below : nat -> rng -> nat * rng) (s : rng)
         (carrier_filter month_filter : string),
    let df := Generator.generate_from rng raw53 raw_below s in
    let filtered := filtered_df df carrier_filter month_filter in
    In carrier_filter (carrier_options df) ->
    In month_filter (month_options df) ->
    month_filter <> "All" ->
    (carrier_count filtered < 3)%nat ->
    page df carrier_filter month_filter
    = Dashboard
        (Some (coverage_message (carrier_count filtered)))
        {| tab1_dataframe := filtered;
           tab1_processed_vs_disputed := Plot (processed_vs_disputed filtered);
           tab1_monthly_disputes := Plot (monthly_disputes filtered);
           tab2_pending_reconciliation_summary :=
             Plot (pending_reconciliation_summary filtered);
           tab2_reconciliation_trend := Plot (reconciliation_trend filtered);
           tab3_dispute_type := Plot (dispute_type filtered);
           tab3_dispute_status := Plot (dispute_status filtered);
           tab4_settlement_status := Plot (settlement_status filtered);
           tab4_settled_vs_outstanding := Plot (settled_vs_outstanding filtered) |}.
Proof.
  intros rng raw53 raw_below s c m df filtered Hc Hm Hne Hlt.
  destruct (generated_options rng raw53 raw_below s) as [Hco Hmo].
  fold df in Hco, Hmo. rewrite Hco in Hc. rewrite Hmo in Hm.
  destruct Hm as [Hm|Hm]; [congruence|].
  apply (coverage_warning_nonempty df c m Hne); [|exact Hlt].
  apply nonempty_labels. fold filtered. unfold filtered, df.
  rewrite generated_filtered_labels.
  destruct Hc as [Hc|Hc].
  - subst c.
    assert (H1 : In "Carrier 1" carriers) by (vm_compute; tauto).
    destruct (grid_selection "Carrier 1" m H1 Hm) as [_ [_ Hall]].
    rewrite Hall. discriminate.
  - destruct (grid_selection c m Hc Hm) as [Hcm _]. rewrite Hcm. discriminate.
Qed.

Lemma coverage_warning_on_offered_selections_witness :
  exists tabs,
    page Lcg.sample_data "Carrier 3" "2024-01"
    = Dashboard
        (Some "Only 1 carrier(s) available for the selected month. Please adjust the filters for a better view.")
        tabs.
Proof.
  eexists. etransitivity.
  - apply (coverage_warning_on_offered_selections
             Z Lcg.raw53 Lcg.raw_below (Lcg.seed 42) "Carrier 3" "2024-01").
    + vm_compute. tauto.
    + vm_compute. tauto.
    + discriminate.
    + vm_compute. lia.
  - f_equal.
Defined.

(** ** The bar chart of lines 82-83 *)



(** ** The page of any frame *)

(** X8. A non-empty selection gets no coverage warning when the month
    selector is "All", however few carriers are left, nor when at least
    3 distinct carriers are left; the tabs are shown alone. *)
Theorem page_without_coverage_warning :
  forall (df : DataFrame) (carrier_filter month_filter : string),
    filtered_df df carrier_filter month_filter <> [] ->
    month_filter = "All"
    \/ (3 <= carrier_count (filtered_df df carrier_filter month_filter))%nat ->
    page df carrier_filter month_filter
    = Dashboard None (tabs_of (filtered_df df carrier_filter month_filter)).
Proof.
  intros df c m Hne Hcase.
  rewrite (page_nonempty df c m _ Hne eq_refl).
  destruct Hcase as [Hm|Hn].
  - subst m. reflexivity.
  - apply Nat.ltb_ge in Hn. rewrite Hn, andb_false_r. reflexivity.
Qed.

Lemma page_without_coverage_warning_witness :
  page two_carriers_settled "Carrier 1" "All"
  = Dashboard None (tabs_of (filtered_df two_carriers_settled "Carrier 1" "All")).
Proof.
  apply (page_without_coverage_warning two_carriers_settled "Carrier 1" "All").
  - vm_compute. discriminate.
  - left. reflexivity.
Defined.

(** X9. Whenever the tabs are shown, each of the eight chart slots holds the
    chart of its table computed from the non-empty selection, and the frame
    displayed is the selection: the line "No data to display for the
    selected filter." of the inner guards is never shown. *)
Theorem dashboard_slots_are_plots :
  forall (df : DataFrame) (carrier_filter month_filter : string)
         (warning : option string) (tabs : Tabs),
    page df carrier_filter month_filter = Dashboard warning tabs ->
    let filtered := filtered_df df carrier_filter month_filter in
    filtered <> []
    /\ tabs
       = {| tab1_dataframe := filtered;
            tab1_processed_vs_disputed := Plot (processed_vs_disputed filtered);
            tab1_monthly_disputes := Plot (monthly_disputes filtered);
            tab2_pending_reconciliation_summary :=
              Plot (pending_reconciliation_summary filtered);
            tab2_reconciliation_trend := Plot (reconciliation_trend filtered);
            tab3_dispute_type := Plot (dispute_type filtered);
            tab3_dispute_status := Plot (dispute_status filtered);
            tab4_settlement_status := Plot (settlement_status filtered);
            tab4_settled_vs_outstanding :=
              Plot (settled_vs_outstanding filtered) |}.
Proof.
  intros df c m w tabs Hpage filtered. unfold page in Hpage.
  fold filtered in Hpage.
  assert (Hne : filtered <> []).
  { intros E. rewrite E in Hpage. discriminate. }
  split; [exact Hne|].
  rewrite <- (tabs_of_nonempty filtered Hne).
  destruct filtered; [congruence|]. cbn [empty] in Hpage.
  inversion Hpage. reflexivity.
Qed.

Lemma dashboard_slots_are_plots_witness :
  filtered_df two_carriers_settled "All" "All" <> []
  /\ tab3_dispute_type (tabs_of two_carriers_settled) = Plot [].
Proof.
  pose proof (dashboard_slots_are_plots
                two_carriers_settled "All" "All" None
                (tabs_of two_carriers_settled) eq_refl) as [Hne Htabs].
  split; [exact Hne|]. rewrite Htabs. reflexivity.
Defined.

(** ** Composition of the filters *)

Lemma applyFilters_twice (df : DataFrame) (c1 m1 c2 m2 : string) :
  applyFilters (applyFilters df c1 m1) c2 m2
  = filter (fun r => (selector_accepts c1 (Carrier_Name r)
                      && selector_accepts m1 (Invoice_Month r))
                     && (selector_accepts c2 (Carrier_Name r)
                         && selector_accepts m2 (Invoice_Month r))) df.
Proof. unfold applyFilters. apply filter_filter. Qed.

(** X10. Narrowing in two runs is narrowing once: filtering by carrier and
    then by month, or by month and then by carrier, gives the selection of
    both selectors together, and filtering a selection again with the same
    selectors changes nothing. *)
Theorem filtered_df_composes :
  forall (df : DataFrame) (carrier_filter month_filter : string),
    filtered_df (filtered_df df carrier_filter "All") "All" month_filter
    = filtered_df df carrier_filter month_filter
    /\ filtered_df (filtered_df df "All" month_filter) carrier_filter "All"
       = filtered_df df carrier_filter month_filter
    /\ filtered_df (filtered_df df carrier_filter month_filter)
                   carrier_filter month_filter
       = filtered_df df carrier_filter month_filter.
Proof.
  intros df c m. rewrite !filtered_df_applyFilters, !applyFilters_twice.
  unfold applyFilters. repeat split; apply filter_ext; intros r;
    unfold selector_accepts; cbn [String.eqb Ascii.eqb Bool.eqb orb];
    destruct (c =? "All"), (m =? "All"), (Carrier_Name r =? c),
      (Invoice_Month r =? m); reflexivity.
Qed.

(** ** Order and shape of the groups *)

Lemma key_leb_total (a b : Key) : key_leb a b = false -> key_leb b a = true.
Proof.
  revert b. induction a as [|x a IH]; intros [|y b]; simpl;
    try discriminate; try reflexivity.
  rewrite (String.compare_antisym y x).
  destruct (String.compare x y); simpl; [apply IH | discriminate | reflexivity].
Qed.

Lemma insert_sorted_HdRel (y k : Key) (l : list Key) :
  key_le y k -> HdRel key_le y l -> HdRel key_le y (insert_sorted k l).
Proof.
  intros Hyk Hl. destruct l as [|z l]; simpl.
  - constructor. exact Hyk.
  - destruct (key_leb k z); constructor.
    + exact Hyk.
    + inversion Hl. assumption.
Qed.

Lemma insert_sorted_Sorted (k : Key) (l : list Key) :
  Sorted key_le l -> Sorted key_le (insert_sorted k l).
Proof.
  induction l as [|y l IH]; intros Hs; simpl.
  - repeat constructor.
  - destruct (key_leb k y) eqn:E.
    + constructor; [exact Hs | constructor; exact E].
    + inversion Hs as [|? ? Hl Hhd]; subst. constructor.
      * apply IH. exact Hl.
      * apply insert_sorted_HdRel; [apply key_leb_total; exact E | exact Hhd].
Qed.

Lemma sort_keys_Sorted (l : list Key) : Sorted key_le (sort_keys l).
Proof.
  induction l as [|k l IH]; simpl.
  - constructor.
  - apply insert_sorted_Sorted. exact IH.
Qed.

Lemma groupby_keys (by_cols : list Column) (df : DataFrame) :
  map fst (groupby by_cols df) = group_keys by_cols df.
Proof. unfold groupby. rewrite map_map. cbn [fst]. apply map_id. Qed.

Lemma agg_sum_keys (cols : list (Row -> Q)) (groups : list (Key * DataFrame)) :
  map fst (agg_sum cols groups) = map fst groups.
Proof. unfold agg_sum. rewrite map_map. reflexivity. Qed.

Lemma size_keys (groups : list (Key * DataFrame)) :
  map fst (size groups) = map fst groups.
Proof. unfold size. rewrite map_map. reflexivity. Qed.

(** X11. The rows of every grouped table, summed or counted, come in
    ascending key order (each key is at most the next one, tuples compared
    lexicographically and strings by code point), and no key occurs twice. *)
Theorem grouped_tables_keys_ascending :
  forall (by_cols : list Column) (cols : list (Row -> Q)) (df : DataFrame),
    Sorted key_le (map fst (agg_sum cols (groupby by_cols df)))
    /\ NoDup (map fst (agg_sum cols (groupby by_cols df)))
    /\ Sorted key_le (map fst (size (groupby by_cols df)))
    /\ NoDup (map fst (size (groupby by_cols df))).
Proof.
  intros by_cols cols df. rewrite agg_sum_keys, size_keys, groupby_keys.
  assert (Hs : Sorted key_le (group_keys by_cols df))
    by apply sort_keys_Sorted.
  pose proof (group_keys_NoDup by_cols df) as Hn. tauto.
Qed.

(** A group is the non-empty list of the rows of its key. *)
Lemma groupby_groups_shape_aux (by_cols : list Column) (df : DataFrame)
      (k : Key) (g : DataFrame) :
  In (k, g) (groupby by_cols df) ->
  g <> [] /\ g = filter (in_group by_cols k) df.
Proof.
  intros Hin. unfold groupby in Hin. apply in_map_iff in Hin.
  destruct Hin as [k' [Heq Hk]]. inversion Heq; subst k' g.
  split; [|reflexivity].
  apply group_keys_In in Hk. destruct Hk as [r [Hr Hkey]]. intros E.
  assert (Hin : In r (filter (in_group by_cols k) df)).
  { apply filter_In. split; [exact Hr | apply in_group_iff; exact Hkey]. }
  rewrite E in Hin. exact Hin.
Qed.

(** X12. Every group of a group-by is non-empty, holds only rows whose key
    is the key of the group, and keeps them in the order of the frame. *)
Theorem groupby_groups_shape :
  forall (by_cols : list Column) (df : DataFrame),
    Forall (fun g : Key * DataFrame =>
              snd g <> []
              /\ Forall (fun r => row_key by_cols r = Some (fst g)) (snd g)
              /\ subseq (snd g) df)
           (groupby by_cols df).
Proof.
  intros by_cols df. apply Forall_forall. intros [k g] Hin.
  destruct (groupby_groups_shape_aux by_cols df k g Hin) as [Hne Hg].
  cbn [fst snd]. split; [exact Hne|]. subst g. split.
  - apply Forall_forall. intros r Hr. apply filter_In in Hr.
    apply in_group_iff. apply Hr.
  - apply filter_subseq.
Qed.

(** ** Totals and counts of the tables *)

(** The counts of the groups add up to the number of rows that have a key. *)
Lemma groupby_count (by_cols : list Column) (df : DataFrame) :
  list_sum (map snd (size (groupby by_cols df)))
  = List.length (filter (has_key by_cols) df).
Proof.
  unfold size, groupby. rewrite !map_map. cbn [snd].
  rewrite (count_over_keys by_cols _ df (group_keys_NoDup by_cols df)).
  f_equal. apply filter_ext_in. intros r Hr. apply group_keys_cover. exact Hr.
Qed.

(** X13. The monthly table has a row for exactly the months present in the
    selection, one row each. *)
Theorem monthly_disputes_rows :
  forall df : DataFrame,
    (forall mo, In [mo] (map fst (monthly_disputes df))
                <-> exists r, In r df /\ Invoice_Month r = mo)
    /\ (forall k, In k (map fst (monthly_disputes df)) -> exists mo, k = [mo])
    /\ NoDup (map fst (monthly_disputes df)).
Proof.
  intros df. unfold monthly_disputes. rewrite agg_sum_keys, groupby_keys.
  split; [|split].
  - intros mo. rewrite group_keys_In. split.
    + intros [r [Hr Hk]]. exists r. cbn in Hk. inversion Hk. tauto.
    + intros [r [Hr Hm]]. exists r. split; [exact Hr|]. cbn. rewrite Hm.
      reflexivity.
  - intros k Hk. apply group_keys_In in Hk. destruct Hk as [r [_ Hk]].
    cbn in Hk. inversion Hk. exists (Invoice_Month r). reflexivity.
  - apply group_keys_NoDup.
Qed.

(** X14. The pending-reconciliation table has a row for exactly the carriers
    that have a "Pending" record in the selection, one row each: a carrier
    with nothing pending has no bar. *)
Theorem pending_reconciliation_summary_rows :
  forall df : DataFrame,
    (forall c, In [c] (map fst (pending_reconciliation_summary df))
               <-> exists r, In r df /\ Carrier_Name r = c
                             /\ Reconciliation_Status r = "Pending")
    /\ (forall k, In k (map fst (pending_reconciliation_summary df)) ->
                  exists c, k = [c])
    /\ NoDup (map fst (pending_reconciliation_summary df)).
Proof.
  intros df. unfold pending_reconciliation_summary, carrier_totals.
  rewrite agg_sum_keys, groupby_keys. split; [|split].
  - intros c. rewrite group_keys_In. unfold pending_reconciliation. split.
    + intros [r [Hr Hk]]. apply filter_In in Hr. destruct Hr as [Hr Hp].
      apply String.eqb_eq in Hp. exists r. cbn in Hk. inversion Hk. tauto.
    + intros [r [Hr [Hc Hp]]]. exists r. split.
      * apply filter_In. split; [exact Hr | apply String.eqb_eq; exact Hp].
      * cbn. rewrite Hc. reflexivity.
  - intros k Hk. apply group_keys_In in Hk. destruct Hk as [r [_ Hk]].
    cbn in Hk. inversion Hk. exists (Carrier_Name r). reflexivity.
  - apply group_keys_NoDup.
Qed.

(** X15. In the reconciliation trend every row counts at least one record,
    namely the records of its month and reconciliation status, and the
    counts of all rows add up to the number of records of the selection. *)
Theorem reconciliation_trend_counts :
  forall df : DataFrame,
    Forall (fun row : Key * nat =>
              (1 <= snd row)%nat
              /\ exists mo st,
                   fst row = [mo; st]
                   /\ snd row
                      = List.length
                          (filter (fun r => (Invoice_Month r =? mo)
                                            && (Reconciliation_Status r =? st))
                                  df))
           (reconciliation_trend df)
    /\ list_sum (map snd (reconciliation_trend df)) = List.length df.
Proof.
  intros df. unfold reconciliation_trend. split.
  - apply Forall_forall. intros [k n] Hin. unfold size in Hin.
    apply in_map_iff in Hin. destruct Hin as [[k' g] [Heq Hg]].
    cbn [fst snd] in Heq. inversion Heq; subst k' n. cbn [fst snd].
    pose proof (groupby_groups_shape_aux [col_month; col_reconciliation] df k g Hg)
      as [Hne Hfilter].
    split.
    + destruct g; [congruence | simpl; lia].
    + assert (Hk2 : In k (group_keys [col_month; col_reconciliation] df))
        by (rewrite <- groupby_keys; apply (in_map fst _ _ Hg)).
      apply group_keys_In in Hk2. destruct Hk2 as [r [_ Hk]].
      cbn in Hk. inversion Hk; subst k.
      exists (Invoice_Month r), (Reconciliation_Status r).
      split; [reflexivity|]. rewrite Hfilter. f_equal. apply filter_ext.
      intros x. unfold in_group. cbn. rewrite andb_true_r. reflexivity.
  - rewrite groupby_count.
    rewrite (filter_all (has_key [col_month; col_reconciliation]));
      reflexivity.
Qed.

(** X16. On every selection of the generated data, the dispute-type table
    has a row for exactly the (carrier, dispute type) pairs of the records
    that have a dispute type, and every record it leaves out, for its null
    dispute type, has a disputed amount of exactly 0. *)
Theorem generated_dispute_type_rows :
  forall (rng : Type) (raw53 : rng -> Z * rng)
         (raw_below : nat -> rng -> nat * rng) (s : rng)
         (carrier_filter month_filter : string),
    let filtered :=
      filtered_df (Generator.generate_from rng raw53 raw_below s)
                  carrier_filter month_filter in
    (forall c t, In [c; t] (map fst (dispute_type filtered))
                 <-> exists r, In r filtered /\ Carrier_Name r = c
                               /\ Dispute_Type r = Some t)
    /\ Forall (fun r => has_key [col_carrier; col_dispute_type] r = false ->
                        Disputed_Amount r = 0%Q)
              filtered.
Proof.
  intros rng raw53 raw_below s c m filtered. split.
  - intros ca t. unfold dispute_type.
    rewrite agg_sum_keys, groupby_keys, group_keys_In. split.
    + intros [r [Hr Hk]]. exists r. split; [exact Hr|].
      unfold row_key, col_carrier, col_dispute_type in Hk.
      destruct (Dispute_Type r); [|discriminate]. inversion Hk. tauto.
    + intros [r [Hr [Hc Ht]]]. exists r. split; [exact Hr|].
      unfold row_key, col_carrier, col_dispute_type. rewrite Ht, Hc.
      reflexivity.
  - apply Forall_forall. intros r Hr Hkey.
    assert (Hgen : In r (Generator.generate_from rng raw53 raw_below s)).
    { unfold filtered in Hr. rewrite filtered_df_applyFilters in Hr.
      apply filter_In in Hr. apply Hr. }
    pose proof (generate_from_Forall rng raw53 raw_below
                  (fun r => Dispute_Type r = None -> Disputed_Amount r = 0%Q) s)
      as Hall.
    rewrite Forall_forall in Hall. apply Hall; [|exact Hgen|].
    + intros mo ca t Hnone.
      apply (gen_row_undisputed rng raw53 raw_below mo ca t Hnone).
    + unfold has_key, row_key, col_carrier, col_dispute_type in Hkey.
      destruct (Dispute_Type r); [discriminate | reflexivity].
Qed.

(** X17. The dispute-status table and the settled-versus-outstanding table
    have the same row keys, in the same order, as the settlement-status
    table: one row for each (carrier, settlement status) pair present in
    the selection. *)
Theorem settlement_tables_rows :
  forall df : DataFrame,
    map fst (dispute_status df) = map fst (settlement_status df)
    /\ map fst (settled_vs_outstanding df) = map fst (settlement_status df)
    /\ (forall c st,
          In [c; st] (map fst (dispute_status df))
          <-> exists r, In r df /\ Carrier_Name r = c
                        /\ Settlement_Status r = st)
    /\ NoDup (map fst (dispute_status df)).
Proof.
  intros df. unfold dispute_status, settled_vs_outstanding, settlement_status.
  rewrite !agg_sum_keys, size_keys, groupby_keys.
  split; [reflexivity|]. split; [reflexivity|]. split.
  - intros c st. rewrite group_keys_In. split.
    + intros [r [Hr Hk]]. exists r. cbn in Hk. inversion Hk. tauto.
    + intros [r [Hr [Hc Hs]]]. exists r. split; [exact Hr|].
      cbn. rewrite Hc, Hs. reflexivity.
  - apply group_keys_NoDup.
Qed.
